(** * run-command-on-git-revisions: the command-line entry point and the
      repository-opening stub, embedded from [main.go].

    The program parses three flags ([-s], [-e], [-p]) and the trailing
    command, fills in defaults, and calls [runCommandOnGitRevisions], which
    opens the repository with go-git and returns.  The embedding keeps the
    control flow of the Go source statement by statement: [flag.Parse] ends
    the process on a command line it does not accept, and [log.Fatalf]
    stops it with status 1, so whatever follows it in the same block is
    never reached. *)

From Stdlib Require Import String Ascii List ZArith Bool Arith Lia.
Import ListNotations.
Local Open Scope string_scope.
Local Open Scope list_scope.

(** ** Go values used by the program *)

(** Go's [error] values.  [errorString] is what [errors.New] builds;
    [wrapError] is what [fmt.Errorf] builds for a format with [%w]: it keeps
    the formatted message and the wrapped error.  A Go [error] that may be
    [nil] is an [option error]. *)
Inductive error : Type :=
| errorString (s : string)
| wrapError (msg : string) (err : error).

(** [err.Error()]. *)
Definition Error (e : error) : string :=
  match e with
  | errorString s => s
  | wrapError msg _ => msg
  end.

(** ** The repository collaborator (go-git)

    The program never looks inside a [*git.Repository]; the record below is
    the state a repository has on disk, so that statements about it (what
    is left unchanged, which revision is an ancestor of which) can be
    written down.  Revisions are named by strings. *)
Module plumbing.

Definition Hash := string.

Record Repository : Type := mkRepository {
  commits : list (Hash * list Hash);   (* commit, its parents *)
  refs : list (string * Hash);         (* symbolic names, HEAD included *)
  worktree : option Hash               (* the checked-out commit *)
}.

Fixpoint assoc {A : Type} (k : string) (l : list (string * A)) : option A :=
  match l with
  | [] => None
  | (k', v) :: l' => if String.eqb k k' then Some v else assoc k l'
  end.

(** A name resolves through the refs first, then as a commit hash. *)
Definition resolveRevision (r : Repository) (name : string) : option Hash :=
  match assoc name (refs r) with
  | Some h => Some h
  | None =>
      match assoc name (commits r) with
      | Some _ => Some name
      | None => None
      end
  end.

Definition parents (r : Repository) (h : Hash) : list Hash :=
  match assoc h (commits r) with
  | Some ps => ps
  | None => []
  end.

(** [reaches n r a h]: commit [a] is [h] or is met by following parent
    links backward from [h], in at most [n] steps. *)
Fixpoint reaches (n : nat) (r : Repository) (a h : Hash) : bool :=
  String.eqb a h ||
  match n with
  | O => false
  | S n' => existsb (reaches n' r a) (parents r h)
  end.

(** [start] is an ancestor of (or equal to) [end_]. *)
Definition is_ancestor (r : Repository) (start end_ : string) : bool :=
  match resolveRevision r start, resolveRevision r end_ with
  | Some a, Some h => reaches (List.length (commits r)) r a h
  | _, _ => false
  end.

End plumbing.

(** ** The process and its surroundings *)

(** What the process does that can be seen from outside it.  [EvCall] marks
    the entry of [runCommandOnGitRevisions] with its four arguments;
    [EvStderr] and [EvUsage] are what the [flag] package writes to standard
    error (a message line, the usage text).  [EvExec] (spawning the user
    command for a revision) and [EvReport] (a line of per-revision report)
    belong to the alphabet of such a tool; [main.go] imports neither
    [os/exec] nor writes to standard output. *)
Inductive event : Type :=
| EvGetwd
| EvCall (start end_ path : string) (args : list string)
| EvPlainOpen (path : string)
| EvLog (msg : string)
| EvExec (revision : string) (argv : list string)
| EvReport (line : string)
| EvStderr (line : string)
| EvUsage.

(** The surroundings of the process: the current working directory as
    [os.Getwd] would report it ([None]: it fails), and what lies on disk at
    each absolute path, as [git.PlainOpen] would find it there. *)
Record World : Type := mkWorld {
  cwd : option string;
  disk : string -> error + plumbing.Repository
}.

(** A computation either returns a value or ends the process with a
    status. *)
Inductive result (A : Type) : Type :=
| Ret (a : A)
| Exit (code : Z).
Arguments Ret {A} a.
Arguments Exit {A} code.

Record Outcome (A : Type) : Type := mkOutcome {
  value : result A;
  final : World;
  emitted : list event
}.
Arguments mkOutcome {A} value final emitted.
Arguments value {A} o.
Arguments final {A} o.
Arguments emitted {A} o.

Definition M (A : Type) : Type := World -> Outcome A.

Definition ret {A : Type} (a : A) : M A :=
  fun w => mkOutcome (Ret a) w [].

Definition bind {A B : Type} (m : M A) (f : A -> M B) : M B :=
  fun w =>
    match m w with
    | mkOutcome (Ret a) w1 t1 =>
        match f a w1 with
        | mkOutcome v w2 t2 => mkOutcome v w2 (t1 ++ t2)
        end
    | mkOutcome (Exit c) w1 t1 => mkOutcome (Exit c) w1 t1
    end.

Definition emit (e : event) : M unit :=
  fun w => mkOutcome (Ret tt) w [e].

Definition exit {A : Type} (code : Z) : M A :=
  fun w => mkOutcome (Exit code) w [].

Declare Scope go_scope.
Delimit Scope go_scope with go.
Notation "x <- m ;; k" := (bind m (fun x => k))
  (at level 61, m at next level, right associativity) : go_scope.
Notation "' p <- m ;; k" := (bind m (fun x => let p := x in k))
  (at level 61, p pattern, m at next level, right associativity) : go_scope.
Notation "m ;; k" := (bind m (fun _ => k))
  (at level 61, right associativity) : go_scope.
Local Open Scope go_scope.

(** ** The packages the program imports *)

Module os.

(** [os.Getwd() (dir string, err error)]. *)
Definition Getwd : M (string * option error) :=
  emit EvGetwd ;;
  fun w =>
    match cwd w with
    | Some d => ret (d, None) w
    | None => ret ("", Some (errorString "getwd: no such file or directory")) w
    end.

End os.

(** [path/filepath] on Unix, as far as go-git uses it to open a
    repository. *)
Module filepath.

(** [strings.Split(s, "/")]. *)
Fixpoint elements (s : string) : list string :=
  match s with
  | EmptyString => [EmptyString]
  | String c s' =>
      if Ascii.eqb c "/" then EmptyString :: elements s'
      else
        match elements s' with
        | e :: es => String c e :: es
        | [] => [String c EmptyString]
        end
  end.

Definition IsAbs (path : string) : bool :=
  match path with
  | String c _ => Ascii.eqb c "/"
  | EmptyString => false
  end.

(** The elements [Clean] keeps, the last kept first in [kept]: empty and
    [.] elements are dropped; [..] removes the element before it, is
    dropped at the root, and is kept at the head of a relative path. *)
Fixpoint cleanElements (rooted : bool) (kept : list string)
    (elems : list string) : list string :=
  match elems with
  | [] => rev kept
  | e :: rest =>
      if String.eqb e "" || String.eqb e "." then
        cleanElements rooted kept rest
      else if String.eqb e ".." then
        match kept with
        | top :: below =>
            if String.eqb top ".." then cleanElements rooted (e :: kept) rest
            else cleanElements rooted below rest
        | [] =>
            if rooted then cleanElements rooted [] rest
            else cleanElements rooted [e] rest
        end
      else cleanElements rooted (e :: kept) rest
  end.

(** [filepath.Clean]. *)
Definition Clean (path : string) : string :=
  if String.eqb path "" then "."
  else
    let rooted := IsAbs path in
    let out := String.concat "/" (cleanElements rooted [] (elements path)) in
    if rooted then "/" ++ out
    else if String.eqb out "" then "." else out.

(** [filepath.Join(a, b)]. *)
Definition Join (a b : string) : string :=
  if String.eqb a "" then (if String.eqb b "" then "" else Clean b)
  else Clean (a ++ "/" ++ b).

(** [filepath.Abs(path) (string, error)]: a relative path is joined to the
    working directory, which is read for that purpose. *)
Definition Abs (path : string) : M (string * option error) :=
  if IsAbs path then ret (Clean path, None)
  else
    '(wd, err) <- os.Getwd ;;
    match err with
    | Some e => ret ("", Some e)
    | None => ret (Join wd path, None)
    end.

End filepath.

Module git.

(** [git.PlainOpen(path)], returning the repository and the error.  go-git
    makes the path absolute with [filepath.Abs] and reads what is on disk
    there; it writes nothing. *)
Definition PlainOpen (path : string)
  : M (option plumbing.Repository * option error) :=
  emit (EvPlainOpen path) ;;
  '(abs, err) <- filepath.Abs path ;;
  match err with
  | Some e => ret (None, Some e)
  | None =>
      fun w =>
        match disk w abs with
        | inr r => ret (Some r, None) w
        | inl e => ret (None, Some e) w
        end
  end.

End git.

Module fmt.

(** [fmt.Errorf(prefix + "%w", err)]. *)
Definition Errorf_w (prefix : string) (err : error) : error :=
  wrapError (prefix ++ Error err) err.

End fmt.

Module log.

(** [log.Fatalf] and [log.Fatal]: print, then [os.Exit(1)].  The date
    and time the logger puts before the message are left out. *)
Definition Fatalf (msg : string) : M unit :=
  emit (EvLog msg) ;; exit 1%Z.

Definition Fatal (err : error) : M unit :=
  emit (EvLog (Error err)) ;; exit 1%Z.

End log.

(** The three flag variables of [main] and the arguments not yet consumed,
    [flag.Args()]: the state of the command-line flag set while and after it
    is parsed.  A flag that was not set holds its default, the empty
    string. *)
Record Flags : Type := mkFlags {
  startFlag : string;
  endFlag : string;
  pathFlag : string;
  Args : list string
}.

(** The [flag] package, for the flag set [main] declares: the string flags
    [s], [e] and [p], parsed with [ExitOnError]. *)
Module flag.

Definition setArgs (f : Flags) (args : list string) : Flags :=
  mkFlags (startFlag f) (endFlag f) (pathFlag f) args.

(** [f.formal[name]], as the setter of the flag's variable. *)
Definition formal (name : string) : option (string -> Flags -> Flags) :=
  if String.eqb name "s" then
    Some (fun v f => mkFlags v (endFlag f) (pathFlag f) (Args f))
  else if String.eqb name "e" then
    Some (fun v f => mkFlags (startFlag f) v (pathFlag f) (Args f))
  else if String.eqb name "p" then
    Some (fun v f => mkFlags (startFlag f) (endFlag f) v (Args f))
  else None.

(** The error of [parseOne]: [ErrHelp], or one made by [f.failf]. *)
Inductive parseError : Type :=
| ErrHelp
| failf (msg : string).

(** [s] cut at its first ['=']. *)
Fixpoint cutEq (s : string) : option (string * string) :=
  match s with
  | EmptyString => None
  | String c s' =>
      if Ascii.eqb c "=" then Some (EmptyString, s')
      else
        match cutEq s' with
        | Some (a, v) => Some (String c a, v)
        | None => None
        end
  end.

(** [name], [hasValue], [value]: the name cut at the first ['='] that is not
    its first character. *)
Definition splitValue (name : string) : string * bool * string :=
  match name with
  | EmptyString => (name, false, EmptyString)
  | String c t =>
      match cutEq t with
      | Some (a, v) => (String c a, true, v)
      | None => (name, false, EmptyString)
      end
  end.

(** [len(name) == 0 || name[0] == '-' || name[0] == '=']. *)
Definition badName (name : string) : bool :=
  match name with
  | EmptyString => true
  | String c _ => Ascii.eqb c "-" || Ascii.eqb c "="
  end.

(** [func (f *FlagSet) parseOne() (bool, error)], with the flag set it
    leaves. *)
Definition parseOne (f : Flags) : bool * option parseError * Flags :=
  match Args f with
  | [] => (false, None, f)
  | s :: rest =>
      match s with
      | String c0 (String c1 s2) =>
          if negb (Ascii.eqb c0 "-") then (false, None, f)
          else
            let minus2 := Ascii.eqb c1 "-" in
            if minus2 && String.eqb s2 "" then
              (false, None, setArgs f rest)      (* "--" ends the flags *)
            else
              let name := if minus2 then s2 else String c1 s2 in
              if badName name then
                (false, Some (failf ("bad flag syntax: " ++ s)), f)
              else
                let f := setArgs f rest in
                let '(name, hasValue, value) := splitValue name in
                match formal name with
                | None =>
                    if String.eqb name "help" || String.eqb name "h" then
                      (false, Some ErrHelp, f)
                    else
                      (false,
                       Some (failf ("flag provided but not defined: -" ++ name)),
                       f)
                | Some set =>
                    if hasValue then (true, None, set value f)
                    else
                      match Args f with
                      | v :: rest' => (true, None, set v (setArgs f rest'))
                      | [] =>
                          (false,
                           Some (failf ("flag needs an argument: -" ++ name)),
                           f)
                      end
                end
      | _ => (false, None, f)                   (* len(s) < 2 *)
      end
  end.

(** How the loop of [Parse] ends. *)
Inductive status : Type :=
| Parsed
| HelpRequested
| Rejected (msg : string).

(** The loop of [func (f *FlagSet) Parse]: [parseOne] until it sees no
    flag.  Every flag seen consumes an argument, so as many rounds as there
    are arguments are enough. *)
Fixpoint parseLoop (fuel : nat) (f : Flags) : status * Flags :=
  match parseOne f with
  | (true, _, f') =>
      match fuel with
      | S n => parseLoop n f'
      | O => (Parsed, f')
      end
  | (false, None, f') => (Parsed, f')
  | (false, Some ErrHelp, f') => (HelpRequested, f')
  | (false, Some (failf msg), f') => (Rejected msg, f')
  end.

(** The flag set after [flag.String] thrice and the loop over
    [os.Args[1:]]. *)
Definition parse (arguments : list string) : status * Flags :=
  parseLoop (List.length arguments) (mkFlags "" "" "" arguments).

(** [flag.Parse()] under [ExitOnError]: on [ErrHelp] the usage has been
    printed and the process exits with status 0; on any other error the
    message and the usage have been printed and it exits with status 2. *)
Definition Parse (arguments : list string) : M Flags :=
  match parse arguments with
  | (Parsed, f) => ret f
  | (HelpRequested, _) => emit EvUsage ;; exit 0%Z
  | (Rejected msg, _) => emit (EvStderr msg) ;; emit EvUsage ;; exit 2%Z
  end.

End flag.

(** ** [main.go] *)

(** [func runCommandOnGitRevisions(start, end, path string, args []string) error] *)
Definition runCommandOnGitRevisions
    (start end_ path : string) (args : list string) : M (option error) :=
  emit (EvCall start end_ path args) ;;
  '(repo, err) <- git.PlainOpen path ;;
  match err with
  | Some e => ret (Some (fmt.Errorf_w "opening repo: " e))
  | None =>
      let _ := repo in
      ret None
  end.

(** [func main()], run with the command line [osArgs] (the arguments after
    the program name). *)
Definition main (osArgs : list string) : M unit :=
  fl <- flag.Parse osArgs ;;
  let startFlag := startFlag fl in
  let endFlag := endFlag fl in
  let pathFlag := pathFlag fl in
  (if String.eqb startFlag "" then log.Fatalf "start flag missing" else ret tt) ;;
  endFlag <- (if String.eqb endFlag "" then ret "HEAD" else ret endFlag) ;;
  pathFlag <-
    (if String.eqb pathFlag "" then
       '(here, err) <- os.Getwd ;;
       match err with
       | Some e =>
           log.Fatalf ("error getting cwd: " ++ Error e) ;;
           ret here                       (* *pathFlag = here *)
       | None => ret pathFlag
       end
     else ret pathFlag) ;;
  let args := Args fl in
  (if Nat.eqb (List.length args) 0 then log.Fatalf "no command specified"
   else ret tt) ;;
  err <- runCommandOnGitRevisions startFlag endFlag pathFlag args ;;
  match err with
  | Some e => log.Fatal e
  | None => ret tt
  end.

(** The status the process ends with: 0 when [main] returns. *)
Definition exit_status {A : Type} (o : Outcome A) : Z :=
  match value o with
  | Ret _ => 0%Z
  | Exit c => c
  end.

(** ** Reading a trace *)

Definition calls (t : list event) : list (string * string * string * list string) :=
  flat_map (fun e =>
    match e with
    | EvCall s e' p a => [(s, e', p, a)]
    | _ => []
    end) t.

Definition opens (t : list event) : list string :=
  flat_map (fun e => match e with EvPlainOpen p => [p] | _ => [] end) t.

Definition execs (t : list event) : list (string * list string) :=
  flat_map (fun e => match e with EvExec r a => [(r, a)] | _ => [] end) t.

Definition reports (t : list event) : list string :=
  flat_map (fun e => match e with EvReport l => [l] | _ => [] end) t.

Definition logs (t : list event) : list string :=
  flat_map (fun e => match e with EvLog m => [m] | _ => [] end) t.

Definition stderrs (t : list event) : list string :=
  flat_map (fun e => match e with EvStderr m => [m] | _ => [] end) t.

Definition usages (t : list event) : nat :=
  List.length (filter (fun e => match e with EvUsage => true | _ => false end) t).


(** ** What an open finds

    [opened w path]: what [git.PlainOpen path] returns in the surroundings
    [w] -- the repository on disk at the absolute form of [path], or the
    error of making it absolute or of looking there.  A path names a valid
    repository when this is a repository. *)
Definition opened (w : World) (path : string) : error + plumbing.Repository :=
  if filepath.IsAbs path then disk w (filepath.Clean path)
  else
    match cwd w with
    | Some d => disk w (filepath.Join d path)
    | None => inl (errorString "getwd: no such file or directory")
    end.

(** ** Sample surroundings *)

(** The linear history A -> B -> C (A oldest) with HEAD at C. *)
Definition abc : plumbing.Repository :=
  plumbing.mkRepository
    [("C", ["B"]); ("B", ["A"]); ("A", [])]
    [("HEAD", "C")]
    (Some "C").

Definition not_exists : error := errorString "repository does not exist".

(** A disk with one repository, at [/repo]. *)
Definition one_repo (p : string) : error + plumbing.Repository :=
  if String.eqb p "/repo" then inr abc else inl not_exists.

(** A process started in [/repo]. *)
Definition in_repo : World := mkWorld (Some "/repo") one_repo.

(** A process on the same machine whose working directory cannot be
    read. *)
Definition no_cwd : World := mkWorld None one_repo.

(** ** The call site

    [reaches_call fl w]: none of the three fatal checks of [main] fires on
    the parsed flags [fl], so control arrives at the call of
    [runCommandOnGitRevisions]. *)
Definition reaches_call (fl : Flags) (w : World) : bool :=
  negb (String.eqb (startFlag fl) "")
  && (negb (String.eqb (pathFlag fl) "")
      || match cwd w with Some _ => true | None => false end)
  && negb (Nat.eqb (List.length (Args fl)) 0).

(** ** Runs on the sample machine *)

Example run_with_all_flags :
  main ["-s"; "A"; "-e"; "C"; "-p"; "/repo"; "echo"; "ok"] in_repo
  = mkOutcome (Ret tt) in_repo
      [EvCall "A" "C" "/repo" ["echo"; "ok"]; EvPlainOpen "/repo"].
Proof. reflexivity. Qed.

Example run_outside_a_repository :
  main ["-s=A"; "-e=C"; "-p=/tmp"; "echo"; "ok"] in_repo
  = mkOutcome (Exit 1%Z) in_repo
      [EvCall "A" "C" "/tmp" ["echo"; "ok"]; EvPlainOpen "/tmp";
       EvLog "opening repo: repository does not exist"].
Proof. reflexivity. Qed.

Example run_with_relative_path :
  main ["-s"; "A"; "-p"; "../repo/."; "echo"; "ok"] in_repo
  = mkOutcome (Ret tt) in_repo
      [EvCall "A" "HEAD" "../repo/." ["echo"; "ok"]; EvPlainOpen "../repo/.";
       EvGetwd].
Proof. reflexivity. Qed.

Example run_without_working_directory :
  main ["-s"; "A"; "-e"; "C"; "echo"; "ok"] no_cwd
  = mkOutcome (Exit 1%Z) no_cwd
      [EvGetwd; EvLog "error getting cwd: getwd: no such file or directory"].
Proof. reflexivity. Qed.

Example run_with_undefined_flag :
  main ["-s"; "A"; "-x"; "echo"; "ok"] in_repo
  = mkOutcome (Exit 2%Z) in_repo
      [EvStderr "flag provided but not defined: -x"; EvUsage].
Proof. reflexivity. Qed.

Example flags_end_at_the_command :
  flag.parse ["-s=a=b"; "--e"; "C"; "make"; "-p"; "/repo"]
  = (flag.Parsed, mkFlags "a=b" "C" "" ["make"; "-p"; "/repo"]).
Proof. reflexivity. Qed.

Example ancestry_in_abc :
  plumbing.is_ancestor abc "A" "C" = true
  /\ plumbing.is_ancestor abc "A" "HEAD" = true
  /\ plumbing.is_ancestor abc "B" "B" = true
  /\ plumbing.is_ancestor abc "C" "A" = false.
Proof. repeat split; reflexivity. Qed.

(** * Properties *)

(** ** The loop of [flag.Parse] has rounds enough *)

Lemma formal_keeps_Args name set v f :
  flag.formal name = Some set -> Args (set v f) = Args f.
Proof.
  unfold flag.formal.
  destruct (String.eqb name "s"); [intros [= <-]; reflexivity |].
  destruct (String.eqb name "e"); [intros [= <-]; reflexivity |].
  destruct (String.eqb name "p"); [intros [= <-]; reflexivity |].
  discriminate.
Qed.

Lemma parseOne_seen_consumes f e f' :
  flag.parseOne f = (true, e, f') ->
  S (List.length (Args f')) <= List.length (Args f).
Proof.
  unfold flag.parseOne.
  destruct (Args f) as [| s rest]; [discriminate |].
  destruct s as [| c0 [| c1 s2]]; try discriminate.
  destruct (negb (Ascii.eqb c0 "-")); [discriminate |].
  destruct (Ascii.eqb c1 "-" && String.eqb s2 ""); [discriminate |].
  destruct (flag.badName _); [discriminate |].
  destruct (flag.splitValue _) as [[name hasValue] val].
  destruct (flag.formal name) as [set |] eqn:Hformal.
  - destruct hasValue.
    + intros [= _ <-]. rewrite (formal_keeps_Args _ _ _ _ Hformal).
      simpl. lia.
    + simpl. destruct rest as [| v rest']; [discriminate |].
      intros [= _ <-]. rewrite (formal_keeps_Args _ _ _ _ Hformal).
      simpl. lia.
  - destruct (String.eqb name "help" || String.eqb name "h"); discriminate.
Qed.

Lemma parseLoop_enough n : forall m f,
  List.length (Args f) <= n ->
  List.length (Args f) <= m ->
  flag.parseLoop n f = flag.parseLoop m f.
Proof.
  induction n as [| n IH]; intros m f Hn Hm.
  - destruct m as [| m]; [reflexivity |]. simpl.
    destruct (flag.parseOne f) as [[seen e] f'] eqn:Hone.
    destruct seen; [| reflexivity].
    apply parseOne_seen_consumes in Hone. lia.
  - destruct m as [| m]; simpl;
      destruct (flag.parseOne f) as [[seen e] f'] eqn:Hone;
      destruct seen; try reflexivity;
      apply parseOne_seen_consumes in Hone; [lia |].
    apply IH; lia.
Qed.

(** ** [runCommandOnGitRevisions] in one equation *)

Lemma runCommandOnGitRevisions_eq start end_ path args w :
  runCommandOnGitRevisions start end_ path args w =
  mkOutcome
    (Ret match opened w path with
         | inl e => Some (fmt.Errorf_w "opening repo: " e)
         | inr _ => None
         end)
    w
    (EvCall start end_ path args :: EvPlainOpen path
       :: (if filepath.IsAbs path then [] else [EvGetwd])).
Proof.
  unfold runCommandOnGitRevisions, git.PlainOpen, filepath.Abs, os.Getwd,
    opened, bind, ret, emit.
  destruct (filepath.IsAbs path); simpl.
  - destruct (disk w (filepath.Clean path)); reflexivity.
  - destruct (cwd w) as [d |]; simpl; [| reflexivity].
    destruct (disk w (filepath.Join d path)); reflexivity.
Qed.

Arguments runCommandOnGitRevisions : simpl never.

Ltac run_main H :=
  unfold main, flag.Parse; rewrite H;
  unfold log.Fatalf, log.Fatal, os.Getwd, exit_status, reaches_call,
    bind, ret, emit, exit;
  simpl.

Ltac split_on_flags fl w :=
  destruct (String.eqb (startFlag fl) "") eqn:?; simpl;
  destruct (String.eqb (endFlag fl) "") eqn:?; simpl;
  destruct (String.eqb (pathFlag fl) "") eqn:?; simpl;
  destruct (cwd w) eqn:?; simpl;
  destruct (Nat.eqb (List.length (Args fl)) 0) eqn:?; simpl;
  rewrite ?runCommandOnGitRevisions_eq; simpl;
  destruct (opened w (pathFlag fl)) eqn:?; simpl;
  destruct (filepath.IsAbs (pathFlag fl)) eqn:?; simpl.

(** ** A run that ends inside [flag.Parse] *)

Lemma main_help argv fl w :
  flag.parse argv = (flag.HelpRequested, fl) ->
  main argv w = mkOutcome (Exit 0%Z) w [EvUsage].
Proof.
  intro H. unfold main, flag.Parse. rewrite H. reflexivity.
Qed.

Lemma main_rejected argv msg fl w :
  flag.parse argv = (flag.Rejected msg, fl) ->
  main argv w = mkOutcome (Exit 2%Z) w [EvStderr msg; EvUsage].
Proof.
  intro H. unfold main, flag.Parse. rewrite H. reflexivity.
Qed.

(** ** [main] never changes its surroundings *)

Lemma main_final argv w : final (main argv w) = w.
Proof.
  destruct (flag.parse argv) as [[| | msg] fl] eqn:H.
  - run_main H. split_on_flags fl w; reflexivity.
  - rewrite (main_help _ _ _ H). reflexivity.
  - rewrite (main_rejected _ _ _ _ H). reflexivity.
Qed.

(** ** What [main] passes to [runCommandOnGitRevisions] *)

Lemma main_calls argv fl w :
  flag.parse argv = (flag.Parsed, fl) ->
  calls (emitted (main argv w)) =
  if reaches_call fl w then
    [(startFlag fl,
      if String.eqb (endFlag fl) "" then "HEAD" else endFlag fl,
      pathFlag fl,
      Args fl)]
  else [].
Proof.
  intro H. run_main H. split_on_flags fl w; reflexivity.
Qed.

(** ** How [main] ends *)

Lemma main_exit_status argv fl w :
  flag.parse argv = (flag.Parsed, fl) ->
  exit_status (main argv w) =
  if reaches_call fl w then
    match opened w (pathFlag fl) with
    | inl _ => 1%Z
    | inr _ => 0%Z
    end
  else 1%Z.
Proof.
  intro H. run_main H. split_on_flags fl w; reflexivity.
Qed.

Lemma main_execs argv w : execs (emitted (main argv w)) = [].
Proof.
  destruct (flag.parse argv) as [[| | msg] fl] eqn:H.
  - run_main H. split_on_flags fl w; reflexivity.
  - rewrite (main_help _ _ _ H). reflexivity.
  - rewrite (main_rejected _ _ _ _ H). reflexivity.
Qed.

(** ** The path flag *)

(** C1 (violated by the code).  The claim: when [-p] is absent, the path
    handed to [runCommandOnGitRevisions] is the current working directory.
    The code: the assignment [*pathFlag = here] sits inside the
    [if err != nil] block, after [log.Fatalf], so it is never reached; when
    [os.Getwd] succeeds the flag keeps the empty string.  Run from [/repo]
    as [-s A true], whatever the disk holds, [main] calls
    [runCommandOnGitRevisions] with the path [""] and opens [""], not
    ["/repo"]. *)
Theorem main_absent_path_flag_passes_empty_path :
  forall d : string -> error + plumbing.Repository,
    let o := main ["-s"; "A"; "true"] (mkWorld (Some "/repo") d) in
    calls (emitted o) = [("A", "HEAD", "", ["true"])]
    /\ opens (emitted o) = [""]
    /\ cwd (final o) = Some "/repo".
Proof.
  intro d. cbv zeta. rewrite main_final.
  assert (H : flag.parse ["-s"; "A"; "true"]
              = (flag.Parsed, mkFlags "A" "" "" ["true"])) by reflexivity.
  run_main H. rewrite runCommandOnGitRevisions_eq. simpl.
  destruct (opened _ _); simpl; repeat split; reflexivity.
Qed.

(** ** Fatal checks of the flags *)

(** C3 fails on the code: the command line [-h] has no [-s], and the
    process exits with status 0 (inside [flag.Parse], after the usage). *)
Lemma help_without_start_flag_exits_zero :
  startFlag (snd (flag.parse ["-h"])) = ""
  /\ exit_status (main ["-h"] in_repo) = 0%Z.
Proof.
  split; reflexivity.
Qed.

(** C3, amended.  When [-s] is absent or empty, the process ends before
    the repository is opened, [runCommandOnGitRevisions] is entered or any
    command is run.  If the command line parses, [main] logs
    "start flag missing" and exits with status 1; if [flag.Parse] rejects
    it, the status is 2; if it asks for help ([-h], [-help]), the usage is
    printed and the status is 0. *)
Theorem main_start_flag_required argv w :
  startFlag (snd (flag.parse argv)) = "" ->
  opens (emitted (main argv w)) = []
  /\ calls (emitted (main argv w)) = []
  /\ execs (emitted (main argv w)) = []
  /\ value (main argv w)
     = match fst (flag.parse argv) with
       | flag.Parsed => Exit 1%Z
       | flag.HelpRequested => Exit 0%Z
       | flag.Rejected _ => Exit 2%Z
       end
  /\ emitted (main argv w)
     = match fst (flag.parse argv) with
       | flag.Parsed => [EvLog "start flag missing"]
       | flag.HelpRequested => [EvUsage]
       | flag.Rejected msg => [EvStderr msg; EvUsage]
       end.
Proof.
  destruct (flag.parse argv) as [[| | msg] fl] eqn:H; simpl; intro Hs.
  - run_main H. rewrite Hs. simpl. repeat split; reflexivity.
  - rewrite (main_help _ _ _ H). repeat split; reflexivity.
  - rewrite (main_rejected _ _ _ _ H). repeat split; reflexivity.
Qed.

Lemma main_start_flag_required_witness :
  opens (emitted (main ["-e"; "C"; "-p"; "/repo"; "true"] in_repo)) = []
  /\ calls (emitted (main ["-e"; "C"; "-p"; "/repo"; "true"] in_repo)) = []
  /\ execs (emitted (main ["-e"; "C"; "-p"; "/repo"; "true"] in_repo)) = []
  /\ value (main ["-e"; "C"; "-p"; "/repo"; "true"] in_repo) = Exit 1%Z
  /\ emitted (main ["-e"; "C"; "-p"; "/repo"; "true"] in_repo)
     = [EvLog "start flag missing"].
Proof.
  apply (main_start_flag_required ["-e"; "C"; "-p"; "/repo"; "true"] in_repo).
  reflexivity.
Defined.

(** C4 fails on the code: the command line [-s A -help] has no positional
    argument, and the process exits with status 0. *)
Lemma help_without_command_exits_zero :
  Args (snd (flag.parse ["-s"; "A"; "-help"])) = []
  /\ exit_status (main ["-s"; "A"; "-help"] in_repo) = 0%Z.
Proof.
  split; reflexivity.
Qed.

(** C4, amended.  When no positional argument is left after the flags,
    [runCommandOnGitRevisions] is never entered (so no repository is opened
    and no command is run) and the process ends with a status that is 1 if
    the command line parses (whichever fatal check of [main] fires first),
    2 if [flag.Parse] rejects it, and 0 if it asks for help. *)
Theorem main_command_required argv w :
  Args (snd (flag.parse argv)) = [] ->
  calls (emitted (main argv w)) = []
  /\ opens (emitted (main argv w)) = []
  /\ execs (emitted (main argv w)) = []
  /\ value (main argv w)
     = match fst (flag.parse argv) with
       | flag.Parsed => Exit 1%Z
       | flag.HelpRequested => Exit 0%Z
       | flag.Rejected _ => Exit 2%Z
       end.
Proof.
  destruct (flag.parse argv) as [[| | msg] fl] eqn:H; simpl; intro Ha.
  - run_main H. rewrite Ha. simpl.
    destruct (String.eqb (startFlag fl) ""); simpl;
      destruct (String.eqb (endFlag fl) ""); simpl;
      destruct (String.eqb (pathFlag fl) ""); simpl;
      destruct (cwd w); simpl;
      repeat split; reflexivity.
  - rewrite (main_help _ _ _ H). repeat split; reflexivity.
  - rewrite (main_rejected _ _ _ _ H). repeat split; reflexivity.
Qed.

Lemma main_command_required_witness :
  calls (emitted (main ["-s"; "A"; "-e"; "C"; "-p"; "/repo"] in_repo)) = []
  /\ opens (emitted (main ["-s"; "A"; "-e"; "C"; "-p"; "/repo"] in_repo)) = []
  /\ execs (emitted (main ["-s"; "A"; "-e"; "C"; "-p"; "/repo"] in_repo)) = []
  /\ value (main ["-s"; "A"; "-e"; "C"; "-p"; "/repo"] in_repo) = Exit 1%Z.
Proof.
  apply (main_command_required ["-s"; "A"; "-e"; "C"; "-p"; "/repo"] in_repo).
  reflexivity.
Defined.

(** ** The end revision *)

(** C5.  When [-e] is absent, the end revision [main] passes to
    [runCommandOnGitRevisions] is "HEAD": the call, made exactly when none
    of the fatal checks fires, has "HEAD" as its second argument. *)
Theorem main_end_defaults_to_HEAD argv fl w :
  flag.parse argv = (flag.Parsed, fl) ->
  endFlag fl = "" ->
  calls (emitted (main argv w)) =
  if reaches_call fl w
  then [(startFlag fl, "HEAD", pathFlag fl, Args fl)]
  else [].
Proof.
  intros H He. rewrite (main_calls _ _ _ H), He. reflexivity.
Qed.

Lemma main_end_defaults_to_HEAD_witness :
  calls (emitted (main ["-s"; "A"; "-p"; "/repo"; "make"; "test"] in_repo)) =
  [("A", "HEAD", "/repo", ["make"; "test"])].
Proof.
  apply (main_end_defaults_to_HEAD
           ["-s"; "A"; "-p"; "/repo"; "make"; "test"]
           (mkFlags "A" "" "/repo" ["make"; "test"]) in_repo);
    reflexivity.
Defined.

(** ** Opening the repository *)

(** C2.  When [path] does not name a valid repository ([git.PlainOpen]
    fails there with [e]), [runCommandOnGitRevisions] returns a non-nil
    error, the open error [e] wrapped behind "opening repo: ", and runs no
    command; a process whose [-p] is that path exits with status 1, again
    without running any command. *)
Theorem open_error_is_fatal start end_ path args w e :
  opened w path = inl e ->
  (value (runCommandOnGitRevisions start end_ path args w)
     = Ret (Some (wrapError ("opening repo: " ++ Error e) e))
   /\ execs (emitted (runCommandOnGitRevisions start end_ path args w)) = [])
  /\ (forall argv fl,
        flag.parse argv = (flag.Parsed, fl) ->
        pathFlag fl = path ->
        exit_status (main argv w) = 1%Z
        /\ execs (emitted (main argv w)) = []).
Proof.
  intro Hd. split.
  - rewrite runCommandOnGitRevisions_eq, Hd. simpl.
    destruct (filepath.IsAbs path); split; reflexivity.
  - intros argv fl H Hp. split; [| apply main_execs].
    rewrite (main_exit_status _ _ _ H), Hp, Hd.
    destruct (reaches_call fl w); reflexivity.
Qed.

Lemma open_error_is_fatal_witness :
  (value (runCommandOnGitRevisions "A" "C" "/tmp" ["true"] in_repo)
     = Ret (Some (wrapError ("opening repo: " ++ Error not_exists) not_exists))
   /\ execs (emitted (runCommandOnGitRevisions "A" "C" "/tmp" ["true"] in_repo))
      = [])
  /\ (forall argv fl,
        flag.parse argv = (flag.Parsed, fl) ->
        pathFlag fl = "/tmp" ->
        exit_status (main argv in_repo) = 1%Z
        /\ execs (emitted (main argv in_repo)) = []).
Proof.
  apply (open_error_is_fatal "A" "C" "/tmp" ["true"] in_repo not_exists).
  reflexivity.
Defined.

(** C9.  When [path] names a valid repository, [runCommandOnGitRevisions]
    returns nil for every [start], [end_] and [args]; all it does is open
    the repository (which reads the working directory when [path] is
    relative): no command is run for any revision and no report line is
    written. *)
Theorem valid_repository_returns_nil start end_ path args w repo :
  opened w path = inr repo ->
  value (runCommandOnGitRevisions start end_ path args w) = Ret None
  /\ emitted (runCommandOnGitRevisions start end_ path args w)
     = EvCall start end_ path args :: EvPlainOpen path
         :: (if filepath.IsAbs path then [] else [EvGetwd])
  /\ execs (emitted (runCommandOnGitRevisions start end_ path args w)) = []
  /\ reports (emitted (runCommandOnGitRevisions start end_ path args w)) = [].
Proof.
  intro Hd. rewrite runCommandOnGitRevisions_eq, Hd. simpl.
  destruct (filepath.IsAbs path); repeat split; reflexivity.
Qed.

Lemma valid_repository_returns_nil_witness :
  value (runCommandOnGitRevisions "A" "C" "/repo" ["echo"; "ok"] in_repo)
    = Ret None
  /\ emitted (runCommandOnGitRevisions "A" "C" "/repo" ["echo"; "ok"] in_repo)
     = EvCall "A" "C" "/repo" ["echo"; "ok"] :: EvPlainOpen "/repo"
         :: (if filepath.IsAbs "/repo" then [] else [EvGetwd])
  /\ execs (emitted
       (runCommandOnGitRevisions "A" "C" "/repo" ["echo"; "ok"] in_repo)) = []
  /\ reports (emitted
       (runCommandOnGitRevisions "A" "C" "/repo" ["echo"; "ok"] in_repo)) = [].
Proof.
  apply (valid_repository_returns_nil
           "A" "C" "/repo" ["echo"; "ok"] in_repo abc).
  reflexivity.
Defined.

(** C10.  The error [runCommandOnGitRevisions] returns does not depend on
    [start], [end_] or [args]: two calls with the same path in the same
    surroundings return the same value, and that value is a non-nil error
    exactly when opening the repository at [path] fails. *)
Theorem result_depends_on_path_only path w :
  (forall start1 end1 args1 start2 end2 args2,
      value (runCommandOnGitRevisions start1 end1 path args1 w)
      = value (runCommandOnGitRevisions start2 end2 path args2 w))
  /\ (forall start end_ args,
        (exists err,
            value (runCommandOnGitRevisions start end_ path args w)
            = Ret (Some err))
        <-> (exists e, opened w path = inl e)).
Proof.
  split.
  - intros. rewrite !runCommandOnGitRevisions_eq. reflexivity.
  - intros start end_ args. rewrite runCommandOnGitRevisions_eq. simpl.
    destruct (opened w path) as [e | r]; split.
    + intros _. exists e. reflexivity.
    + intros _. eexists. reflexivity.
    + intros [err H]. discriminate H.
    + intros [e H]. discriminate H.
Qed.

(** ** No effect on the repository *)

(** C8.  [runCommandOnGitRevisions] leaves its surroundings as they were:
    every repository on disk (commit graph, refs, checked-out commit) is
    the same after the call as before, for every input.  Its only contact
    with the repository collaborator is the one read [git.PlainOpen path].
    The same holds of a whole run of [main]. *)
Theorem repository_state_unchanged start end_ path args w :
  final (runCommandOnGitRevisions start end_ path args w) = w
  /\ (forall p, disk (final (runCommandOnGitRevisions start end_ path args w)) p
                = disk w p)
  /\ opens (emitted (runCommandOnGitRevisions start end_ path args w)) = [path]
  /\ (forall argv, final (main argv w) = w).
Proof.
  rewrite runCommandOnGitRevisions_eq. simpl.
  split; [reflexivity |]. split; [reflexivity |].
  split; [destruct (filepath.IsAbs path); reflexivity |].
  intro argv. apply main_final.
Qed.

(** ** Revision ranges *)

(** C6 fails on the code: in the history A -> B -> C, C is not an ancestor
    of A, yet [runCommandOnGitRevisions "C" "A"] returns nil and the
    process exits with status 0. *)
Lemma reversed_range_returns_nil :
  opened in_repo "/repo" = inr abc
  /\ plumbing.is_ancestor abc "C" "A" = false
  /\ value (runCommandOnGitRevisions "C" "A" "/repo" ["echo"; "ok"] in_repo)
     = Ret None
  /\ exit_status
       (main ["-s"; "C"; "-e"; "A"; "-p"; "/repo"; "echo"; "ok"] in_repo)
     = 0%Z.
Proof.
  repeat split; reflexivity.
Qed.

(** C6, amended.  For every valid repository and every [start], [end_]
    such that [start] is not an ancestor of [end_],
    [runCommandOnGitRevisions] returns nil (the revisions are not resolved
    and their ancestry is not examined), a process that reaches the call
    exits with status 0, and no command is run. *)
Theorem not_ancestor_is_not_examined start end_ path args w repo :
  opened w path = inr repo ->
  plumbing.is_ancestor repo start end_ = false ->
  value (runCommandOnGitRevisions start end_ path args w) = Ret None
  /\ execs (emitted (runCommandOnGitRevisions start end_ path args w)) = []
  /\ (forall argv fl,
        flag.parse argv = (flag.Parsed, fl) ->
        pathFlag fl = path ->
        exit_status (main argv w) = (if reaches_call fl w then 0%Z else 1%Z)
        /\ execs (emitted (main argv w)) = []).
Proof.
  intros Hd _. rewrite runCommandOnGitRevisions_eq, Hd. simpl.
  split; [reflexivity |].
  split; [destruct (filepath.IsAbs path); reflexivity |].
  intros argv fl H Hp. split; [| apply main_execs].
  rewrite (main_exit_status _ _ _ H), Hp, Hd. reflexivity.
Qed.

Lemma not_ancestor_is_not_examined_witness :
  value (runCommandOnGitRevisions "C" "A" "/repo" ["true"] in_repo) = Ret None
  /\ execs (emitted (runCommandOnGitRevisions "C" "A" "/repo" ["true"] in_repo))
     = []
  /\ (forall argv fl,
        flag.parse argv = (flag.Parsed, fl) ->
        pathFlag fl = "/repo" ->
        exit_status (main argv in_repo)
        = (if reaches_call fl in_repo then 0%Z else 1%Z)
        /\ execs (emitted (main argv in_repo)) = []).
Proof.
  apply (not_ancestor_is_not_examined "C" "A" "/repo" ["true"] in_repo abc);
    reflexivity.
Defined.

(** C7 fails on the code: with start and end both C in a valid repository,
    the command is run zero times, not once. *)
Lemma single_revision_runs_nothing :
  opened in_repo "/repo" = inr abc
  /\ plumbing.resolveRevision abc "C" = Some "C"
  /\ List.length
       (execs (emitted
          (runCommandOnGitRevisions "C" "C" "/repo" ["echo"; "ok"] in_repo)))
     <> 1
  /\ execs (emitted
       (main ["-s"; "C"; "-e"; "C"; "-p"; "/repo"; "echo"; "ok"] in_repo))
     = [].
Proof.
  repeat split; try reflexivity. simpl. discriminate.
Qed.

(** C7, amended.  For every valid repository, when the start revision
    equals the end revision, [runCommandOnGitRevisions] opens the
    repository and returns nil; it resolves no revision list and the
    command is run zero times. *)
Theorem equal_endpoints_run_nothing start end_ path args w repo :
  opened w path = inr repo ->
  start = end_ ->
  value (runCommandOnGitRevisions start end_ path args w) = Ret None
  /\ emitted (runCommandOnGitRevisions start end_ path args w)
     = EvCall start start path args :: EvPlainOpen path
         :: (if filepath.IsAbs path then [] else [EvGetwd])
  /\ List.length
       (execs (emitted (runCommandOnGitRevisions start end_ path args w))) = 0.
Proof.
  intros Hd <-. rewrite runCommandOnGitRevisions_eq, Hd. simpl.
  destruct (filepath.IsAbs path); repeat split; reflexivity.
Qed.

Lemma equal_endpoints_run_nothing_witness :
  value (runCommandOnGitRevisions "B" "B" "/repo" ["true"] in_repo) = Ret None
  /\ emitted (runCommandOnGitRevisions "B" "B" "/repo" ["true"] in_repo)
     = EvCall "B" "B" "/repo" ["true"] :: EvPlainOpen "/repo"
         :: (if filepath.IsAbs "/repo" then [] else [EvGetwd])
  /\ List.length
       (execs (emitted
          (runCommandOnGitRevisions "B" "B" "/repo" ["true"] in_repo))) = 0.
Proof.
  apply (equal_endpoints_run_nothing "B" "B" "/repo" ["true"] in_repo abc);
    reflexivity.
Defined.

(** * Further properties of [main] and [runCommandOnGitRevisions] *)

(** ** Diagnostics *)

(** X1.  On a command line that parses, the diagnostic [main] logs is
    decided by the first check that fails, in the order of the source: the
    start flag, then the working directory (consulted only when [-p] is
    empty), then the command, then the opening of the repository, whose
    error is printed behind "opening repo: ".  A run that passes all four
    logs nothing. *)
Theorem main_diagnostic_precedence argv fl w :
  flag.parse argv = (flag.Parsed, fl) ->
  logs (emitted (main argv w)) =
  if String.eqb (startFlag fl) "" then ["start flag missing"]
  else if String.eqb (pathFlag fl) ""
          && match cwd w with Some _ => false | None => true end
  then ["error getting cwd: getwd: no such file or directory"]
  else if Nat.eqb (List.length (Args fl)) 0 then ["no command specified"]
  else match opened w (pathFlag fl) with
       | inl e => [("opening repo: " ++ Error e)%string]
       | inr _ => []
       end.
Proof.
  intro H. run_main H. split_on_flags fl w; reflexivity.
Qed.

Lemma main_diagnostic_precedence_witness :
  logs (emitted (main ["-s"; "A"; "-p"; "/tmp"; "true"] in_repo)) =
  ["opening repo: repository does not exist"].
Proof.
  apply (main_diagnostic_precedence
           ["-s"; "A"; "-p"; "/tmp"; "true"]
           (mkFlags "A" "" "/tmp" ["true"]) in_repo).
  reflexivity.
Defined.

(** X2.  A run of [main] ends in one of three ways: with status 0 and no
    diagnostic; with status 1 and exactly one log line, from one of the
    checks of [main]; or with status 2 and one message followed by the
    usage on standard error, from [flag.Parse].  No other status is
    produced and a failure is never silent. *)
Theorem main_fails_with_one_diagnostic argv w :
  (exit_status (main argv w) = 0%Z
   /\ logs (emitted (main argv w)) = []
   /\ stderrs (emitted (main argv w)) = [])
  \/ (exit_status (main argv w) = 1%Z
      /\ stderrs (emitted (main argv w)) = []
      /\ exists msg, logs (emitted (main argv w)) = [msg])
  \/ (exit_status (main argv w) = 2%Z
      /\ logs (emitted (main argv w)) = []
      /\ usages (emitted (main argv w)) = 1
      /\ exists msg, stderrs (emitted (main argv w)) = [msg]).
Proof.
  destruct (flag.parse argv) as [[| | msg] fl] eqn:H.
  - run_main H.
    split_on_flags fl w;
      first [ left; repeat split; reflexivity
            | right; left; split; [reflexivity |];
              split; [reflexivity | eexists; reflexivity] ].
  - rewrite (main_help _ _ _ H). left. repeat split; reflexivity.
  - rewrite (main_rejected _ _ _ _ H). right. right.
    split; [reflexivity |]. split; [reflexivity |]. split; [reflexivity |].
    exists msg. reflexivity.
Qed.

(** X3.  [main] exits with status 0 exactly when the command line asks
    for help, or it parses, none of the flag checks is fatal and the path
    flag, as given, names a repository that opens. *)
Theorem main_succeeds_iff argv w :
  exit_status (main argv w) = 0%Z
  <-> fst (flag.parse argv) = flag.HelpRequested
      \/ (fst (flag.parse argv) = flag.Parsed
          /\ reaches_call (snd (flag.parse argv)) w = true
          /\ exists r, opened w (pathFlag (snd (flag.parse argv))) = inr r).
Proof.
  destruct (flag.parse argv) as [[| | msg] fl] eqn:H; simpl.
  - rewrite (main_exit_status _ _ _ H).
    destruct (reaches_call fl w); destruct (opened w (pathFlag fl)) as [e | r];
      split; try discriminate.
    + intros [Hh | [_ [_ [r Hr]]]]; discriminate.
    + intros _. right. split; [reflexivity |].
      split; [reflexivity | exists r; reflexivity].
    + intros _. reflexivity.
    + intros [Hh | [_ [Hc _]]]; discriminate.
    + intros [Hh | [_ [Hc _]]]; discriminate.
  - rewrite (main_help _ _ _ H). split; [intros _; left |]; reflexivity.
  - rewrite (main_rejected _ _ _ _ H). split; [discriminate |].
    intros [Hh | [Hp _]]; discriminate.
Qed.

(** ** Use of the working directory *)



(** X5.  With an absolute [-p], the working directory has no influence:
    processes on the same disk that differ only in their working directory
    (one of which may be unreadable) end the same way with the same
    trace. *)
Theorem main_absolute_path_ignores_cwd argv d c1 c2 :
  filepath.IsAbs (pathFlag (snd (flag.parse argv))) = true ->
  value (main argv (mkWorld c1 d)) = value (main argv (mkWorld c2 d))
  /\ emitted (main argv (mkWorld c1 d)) = emitted (main argv (mkWorld c2 d)).
Proof.
  destruct (flag.parse argv) as [[| | msg] fl] eqn:H; simpl; intro Hp.
  - assert (Hne : String.eqb (pathFlag fl) "" = false).
    { destruct (pathFlag fl); [discriminate Hp | reflexivity]. }
    run_main H. rewrite Hne. simpl.
    destruct (String.eqb (startFlag fl) ""); simpl;
      destruct (String.eqb (endFlag fl) ""); simpl;
      destruct (Nat.eqb (List.length (Args fl)) 0); simpl;
      rewrite ?runCommandOnGitRevisions_eq; unfold opened; rewrite ?Hp; simpl;
      try (destruct (d (filepath.Clean (pathFlag fl))); simpl);
      split; reflexivity.
  - rewrite !(main_help _ _ _ H). split; reflexivity.
  - rewrite !(main_rejected _ _ _ _ H). split; reflexivity.
Qed.

Lemma main_absolute_path_ignores_cwd_witness :
  value (main ["-s"; "A"; "-p"; "/repo"; "true"] (mkWorld None one_repo))
  = value (main ["-s"; "A"; "-p"; "/repo"; "true"]
             (mkWorld (Some "/home") one_repo))
  /\ emitted (main ["-s"; "A"; "-p"; "/repo"; "true"] (mkWorld None one_repo))
     = emitted (main ["-s"; "A"; "-p"; "/repo"; "true"]
                  (mkWorld (Some "/home") one_repo)).
Proof.
  apply (main_absolute_path_ignores_cwd
           ["-s"; "A"; "-p"; "/repo"; "true"] one_repo None (Some "/home")).
  reflexivity.
Defined.

(** ** The arguments of the call *)

(** X6.  An explicit [-e] is passed on as given, together with the start
    flag, the path flag and the command, in the one call [main] makes when
    no fatal check fires. *)
Theorem main_explicit_end_is_passed argv fl w :
  flag.parse argv = (flag.Parsed, fl) ->
  String.eqb (endFlag fl) "" = false ->
  calls (emitted (main argv w)) =
  if reaches_call fl w
  then [(startFlag fl, endFlag fl, pathFlag fl, Args fl)]
  else [].
Proof.
  intros H He. rewrite (main_calls _ _ _ H), He. reflexivity.
Qed.

Lemma main_explicit_end_is_passed_witness :
  calls (emitted (main ["-s"; "A"; "-e"; "B"; "-p"; "/repo"; "make"] in_repo))
  = [("A", "B", "/repo", ["make"])].
Proof.
  apply (main_explicit_end_is_passed
           ["-s"; "A"; "-e"; "B"; "-p"; "/repo"; "make"]
           (mkFlags "A" "B" "/repo" ["make"]) in_repo);
    reflexivity.
Defined.

(** X7.  What the start flag, the end flag and the command say does not
    change how [main] ends: two command lines with the same [-p], each with
    a start flag and a command, end with the same status in the same
    surroundings. *)
Theorem main_status_ignores_revisions_and_command argv1 argv2 fl1 fl2 w :
  flag.parse argv1 = (flag.Parsed, fl1) ->
  flag.parse argv2 = (flag.Parsed, fl2) ->
  pathFlag fl1 = pathFlag fl2 ->
  String.eqb (startFlag fl1) "" = false ->
  String.eqb (startFlag fl2) "" = false ->
  Nat.eqb (List.length (Args fl1)) 0 = false ->
  Nat.eqb (List.length (Args fl2)) 0 = false ->
  exit_status (main argv1 w) = exit_status (main argv2 w).
Proof.
  intros H1 H2 Hp Hs1 Hs2 Ha1 Ha2.
  rewrite (main_exit_status _ _ _ H1), (main_exit_status _ _ _ H2).
  unfold reaches_call. rewrite Hs1, Hs2, Ha1, Ha2, Hp. reflexivity.
Qed.

Lemma main_status_ignores_revisions_and_command_witness :
  exit_status (main ["-s"; "A"; "-e"; "C"; "-p"; "/repo"; "make"; "test"] in_repo)
  = exit_status (main ["-p=/repo"; "-s=C"; "false"] in_repo).
Proof.
  apply (main_status_ignores_revisions_and_command
           ["-s"; "A"; "-e"; "C"; "-p"; "/repo"; "make"; "test"]
           ["-p=/repo"; "-s=C"; "false"]
           (mkFlags "A" "C" "/repo" ["make"; "test"])
           (mkFlags "C" "" "/repo" ["false"]) in_repo);
    reflexivity.
Defined.

(** ** Where failure is reported *)


(** X9.  [main] opens at most one repository, and opens one exactly when
    it makes the call: no repository is touched by a run that stops in
    [flag.Parse] or at a flag check. *)
Theorem main_opens_once_when_called argv w :
  List.length (opens (emitted (main argv w)))
  = List.length (calls (emitted (main argv w)))
  /\ List.length (opens (emitted (main argv w))) <= 1.
Proof.
  destruct (flag.parse argv) as [[| | msg] fl] eqn:H.
  - run_main H. split_on_flags fl w; split; simpl; auto.
  - rewrite (main_help _ _ _ H). simpl. auto.
  - rewrite (main_rejected _ _ _ _ H). simpl. auto.
Qed.

(** ** The command line *)

(** X10.  Every combination of flag values and command can be given on
    the command line: with the values attached by [=] and the command
    behind [--], [flag.Parse] accepts the line and leaves exactly these
    values, whatever characters they contain. *)
Theorem parse_attached_values s e p args :
  flag.parse (("-s=" ++ s)%string :: ("-e=" ++ e)%string
              :: ("-p=" ++ p)%string :: "--" :: args)
  = (flag.Parsed, mkFlags s e p args).
Proof.
  reflexivity.
Qed.
